(** * n2v_examples: the Wu-Yang tutorial notebooks

    The repository holds Jupyter notebooks that drive the [n2v] inversion
    toolkit.  Each notebook is a straight-line script: it runs a reference
    calculation, assigns the target densities to an [Inverter] object, calls
    [invert], and combines potentials sampled on a grid into [vxc].

    This development embeds the code cells of the PySCF Beryllium notebook
    and of [Psi4_Examples/Wu_Yang/Be_Example.ipynb].  Calls into PySCF, Psi4
    and n2v are fields of an interface class; what the notebooks themselves compute
    (numpy arithmetic, slicing, attribute assignment, the order of the cells)
    is written out.  numpy's float64 arithmetic is idealised as exact
    rational arithmetic ([Q]); a Python exception is [None]. *)

From Stdlib Require Import List String Ascii Bool Arith ZArith QArith Lia.
Import ListNotations.

Declare Scope py_scope.
Delimit Scope py_scope with py.

(** Sequencing of computations that may raise. *)
Notation "x <- c ;; k" :=
  (match c with Some x => k | None => None end)
  (at level 61, c at next level, right associativity) : py_scope.

Local Open Scope py_scope.

(** * numpy arrays *)

Module Numpy.

(** One- and two-dimensional float arrays. *)
Definition array1 := list Q.
Definition array2 := list array1.

Section Broadcast.
Context {A B C : Type}.
Variable f : A -> B -> option C.

(** Elementwise combination along an axis on which both operands have the
    same extent. *)
Fixpoint zipM (a : list A) (b : list B) : option (list C) :=
  match a, b with
  | [], [] => Some []
  | x :: a', y :: b' =>
      z <- f x y ;; r <- zipM a' b' ;; Some (z :: r)
  | _, _ => None
  end.

(** The left operand has extent 1 and is repeated along the right one. *)
Fixpoint mapL (x : A) (b : list B) : option (list C) :=
  match b with
  | [] => Some []
  | y :: b' => z <- f x y ;; r <- mapL x b' ;; Some (z :: r)
  end.

(** The right operand has extent 1 and is repeated along the left one. *)
Fixpoint mapR (a : list A) (y : B) : option (list C) :=
  match a with
  | [] => Some []
  | x :: a' => z <- f x y ;; r <- mapR a' y ;; Some (z :: r)
  end.

(** numpy's broadcasting rule along one axis: the extents agree, or one of
    them is 1 and that operand is repeated; anything else raises
    [ValueError]. *)
Definition broadcast (a : list A) (b : list B) : option (list C) :=
  if (List.length a =? List.length b)%nat then zipM a b
  else match a, b with
       | [x], _ => mapL x b
       | _, [y] => mapR a y
       | _, _ => None
       end.

End Broadcast.

(** [a + b] and [a - b] on one-dimensional arrays. *)
Definition add1 : array1 -> array1 -> option array1 :=
  broadcast (fun x y => Some (x + y)%Q).
Definition sub1 : array1 -> array1 -> option array1 :=
  broadcast (fun x y => Some (x - y)%Q).

(** [a + b] on two-dimensional arrays: broadcast over rows, then columns.
    An array without rows carries no width here, so the rule is numpy's for
    arrays that have at least one row. *)
Definition add2 : array2 -> array2 -> option array2 :=
  broadcast add1.

(** [s * a] for a Python scalar [s] and a one-dimensional array [a]. *)
Definition scale1 (s : Q) (a : array1) : array1 := map (Qmult s) a.

(** [m / 2] for a two-dimensional array [m]. *)
Definition halve2 (m : array2) : array2 :=
  map (map (fun x => x / 2)%Q) m.

(** [m[:, :k]]: every row, the first [k] columns ([k] a non-negative int). *)
Definition cols_upto (k : nat) (m : array2) : array2 := map (firstn k) m.

(** [np.linspace(a, b, n)], endpoint included. *)
Definition linspace (a b : Q) (n : nat) : array1 :=
  match n with
  | 0%nat => []
  | 1%nat => [a]
  | _ => map (fun i => a + inject_Z (Z.of_nat i) * ((b - a) / inject_Z (Z.of_nat (n - 1))))%Q
             (seq 0 n)
  end.

(** [np.zeros_like(a)]. *)
Definition zeros_like (a : array1) : array1 := map (fun _ => 0%Q) a.

(** Equality of arrays as numbers: same shape, entries equal as rationals. *)
Definition aeq1 : array1 -> array1 -> Prop := Forall2 Qeq.
Definition aeq2 : array2 -> array2 -> Prop := Forall2 aeq1.

End Numpy.

Import Numpy.

(** * Python scalars *)

(** [1 - 1/(nalpha + nbeta)] on Python ints: true division, which raises
    [ZeroDivisionError] when the electron count is 0. *)
Definition fermi_amaldi_factor (nalpha nbeta : nat) : option Q :=
  if (nalpha + nbeta =? 0)%nat then None
  else Some (1 - 1 / inject_Z (Z.of_nat (nalpha + nbeta)))%Q.

(** [l[i]] on a Python list: [IndexError] past the end. *)
Definition getitem {A : Type} (l : list A) (i : nat) : option A := nth_error l i.

(** * The n2v [Inverter] object, as far as the notebooks touch it *)

(** The attributes the notebooks assign or read: the target densities [Dt],
    occupied orbital coefficients [ct] and orbital energies [et] (one entry
    per spin channel), the electron counts, the optimised coefficients
    [v_pbs] on the potential basis set, and the grid engine [eng.grid]. *)
Record Inverter (Grid : Type) : Type := mkInverter {
  Dt : list array2;
  ct : list array2;
  et : list array1;
  nalpha : nat;
  nbeta : nat;
  v_pbs : array1;
  eng_grid : Grid
}.

Arguments mkInverter {Grid} _ _ _ _ _ _ _.
Arguments Dt {Grid} _.
Arguments ct {Grid} _.
Arguments et {Grid} _.
Arguments nalpha {Grid} _.
Arguments nbeta {Grid} _.
Arguments v_pbs {Grid} _.
Arguments eng_grid {Grid} _.

(** Attribute assignment: [inv.Dt = v], [inv.ct = v], [inv.et = v]. *)
Definition set_Dt {G : Type} (i : Inverter G) (v : list array2) : Inverter G :=
  mkInverter v (ct i) (et i) (nalpha i) (nbeta i) (v_pbs i) (eng_grid i).
Definition set_ct {G : Type} (i : Inverter G) (v : list array2) : Inverter G :=
  mkInverter (Dt i) v (et i) (nalpha i) (nbeta i) (v_pbs i) (eng_grid i).
Definition set_et {G : Type} (i : Inverter G) (v : list array1) : Inverter G :=
  mkInverter (Dt i) (ct i) v (nalpha i) (nbeta i) (v_pbs i) (eng_grid i).

(** A method of [inv.eng.grid] leaves the grid engine in state [g]. *)
Definition set_grid {G : Type} (i : Inverter G) (g : G) : Inverter G :=
  mkInverter (Dt i) (ct i) (et i) (nalpha i) (nbeta i) (v_pbs i) g.

(** The per-channel inputs handed to the inverter. *)
Definition inversion_inputs {G : Type} (i : Inverter G)
  : list array2 * list array2 * list array1 := (Dt i, ct i, et i).

(** Exchange of the two spin channels in those inputs. *)
Definition spin_exchange (inp : list array2 * list array2 * list array1)
  : list array2 * list array2 * list array1 :=
  let '(D, c, e) := inp in (rev D, rev c, rev e).

(** * The PySCF notebook *)

(** What the notebook calls in PySCF and in n2v's PySCF engine.  Methods of
    [inv.eng.grid] take the grid engine's state and hand back the state they
    leave behind.  Of the calls only [invert] is given a failing outcome; a
    grid call is taken to return, so nothing here speaks of a cell in which
    one of them raises. *)
Class PySCF : Type := {
  Mol : Type;
  MeanField : Type;
  Grid : Type;
  (** [gto.M(atom=..., basis=...)] *)
  gto_M : string -> string -> Mol;
  (** [mol.nelec] *)
  nelec : Mol -> nat * nat;
  (** [mf = mol.KS(); mf.xc = xc; mf.kernel()] *)
  KS_kernel : Mol -> string -> MeanField;
  (** [mf.make_rdm1()] *)
  make_rdm1 : MeanField -> array2;
  (** [mf.mo_coeff] *)
  mo_coeff : MeanField -> array2;
  (** [mf.mo_energy] *)
  mo_energy : MeanField -> array1;
  (** [n2v.Inverter(engine=...)] *)
  new_Inverter : string -> Inverter Grid;
  (** [inv.set_system(mol, basis, pbs=...)] *)
  set_system : Inverter Grid -> Mol -> string -> string -> Inverter Grid;
  (** [inv.invert(method, guide_components=...)]; [None] when it raises *)
  invert : Inverter Grid -> string -> string -> option (Inverter Grid);
  (** [inv.eng.grid.build_rectangular(shape)] *)
  grid_build_rectangular : Grid -> nat * nat * nat -> Grid;
  (** [inv.eng.grid.x] *)
  grid_x : Grid -> array1;
  (** [inv.eng.grid.hartree(density, grid=...)] *)
  grid_hartree : Grid -> array2 -> string -> array1 * Grid;
  (** [inv.eng.grid.to_grid(coefficients, grid=...)] *)
  grid_to_grid : Grid -> array1 -> string -> array1 * Grid
}.

Module PySCF_Be.
Section Cells.
Context {T : PySCF}.

(** The notebook's variables after the last code cell that computes. *)
Record Namespace : Type := mkNamespace {
  mol : Mol;
  mf : MeanField;
  da : array2;
  db : array2;
  ca : array2;
  cb : array2;
  ea : array1;
  eb : array1;
  inv : Inverter Grid;
  x : array1;
  vH : array1;
  vFA : array1;
  vrest : array1;
  hartree : array1;
  fa : array1;
  vxc : array1
}.

(** Cell [tropical-frequency], first half: molecule and reference
    calculation.  The atom string is the notebook's, without its blanks. *)
Definition define_molecule : Mol := gto_M "Be" "aug-cc-pvtz".
Definition perform_calculation (m : Mol) : MeanField := KS_kernel m "scan".

(** Cell [tropical-frequency], second half:
<<
    da, db = mf.make_rdm1()/2, mf.make_rdm1()/2
    ca, cb = mf.mo_coeff[:,:mol.nelec[0]], mf.mo_coeff[:, :mol.nelec[1]]
    ea, eb = mf.mo_energy, mf.mo_energy
    inv = n2v.Inverter( engine='pyscf' )
    inv.set_system( mol, 'aug-cc-pvtz', pbs='aug-cc-pvqz' )
    inv.Dt = [da, db]
    inv.ct = [ca, cb]
    inv.et = [ea, eb]
>> *)
Definition extract_da (f : MeanField) : array2 := halve2 (make_rdm1 f).
Definition extract_db (f : MeanField) : array2 := halve2 (make_rdm1 f).
Definition extract_ca (m : Mol) (f : MeanField) : array2 :=
  cols_upto (fst (nelec m)) (mo_coeff f).
Definition extract_cb (m : Mol) (f : MeanField) : array2 :=
  cols_upto (snd (nelec m)) (mo_coeff f).
Definition extract_ea (f : MeanField) : array1 := mo_energy f.
Definition extract_eb (f : MeanField) : array1 := mo_energy f.

Definition initialize_inverter (m : Mol) (f : MeanField) : Inverter Grid :=
  let i := new_Inverter "pyscf" in
  let i := set_system i m "aug-cc-pvtz" "aug-cc-pvqz" in
  let i := set_Dt i [extract_da f; extract_db f] in
  let i := set_ct i [extract_ca m f; extract_cb m f] in
  set_et i [extract_ea f; extract_eb f].

(** Cell [cardiac-fossil]:
    [inv.invert("WuYang", guide_components="fermi_amaldi")]. *)
Definition cell_invert (i : Inverter Grid) : option (Inverter Grid) :=
  invert i "WuYang" "fermi_amaldi".

(** Cell [violent-revelation]:
<<
    inv.eng.grid.build_rectangular((1001,1,1))
    x = inv.eng.grid.x
>> *)
Definition cell_build_grid (i : Inverter Grid) : Inverter Grid * array1 :=
  let g := grid_build_rectangular (eng_grid i) (1001, 1, 1)%nat in
  (set_grid i g, grid_x g).

(** Cell [guilty-costs]:
<<
    vH = inv.eng.grid.hartree(density=inv.Dt[0]+inv.Dt[1], grid='rectangular')
    vFA = (1-1/(inv.nalpha + inv.nbeta)) * vH
>>
    Returns [vH], [vFA] and the inverter as the call leaves it. *)
Definition cell_potentials (i : Inverter Grid)
  : option (array1 * array1 * Inverter Grid) :=
  D0 <- getitem (Dt i) 0 ;;
  D1 <- getitem (Dt i) 1 ;;
  density <- add2 D0 D1 ;;
  let r := grid_hartree (eng_grid i) density "rectangular" in
  let i' := set_grid i (snd r) in
  s <- fermi_amaldi_factor (nalpha i') (nbeta i') ;;
  Some (fst r, scale1 s (fst r), i').

(** Cell [serious-publication]:
<<
    vrest = inv.eng.grid.to_grid(inv.v_pbs, grid='rectangular')
    hartree = inv.eng.grid.hartree(da+db, grid='rectangular')
    fa = (1-1/(inv.nalpha + inv.nbeta)) * hartree
    vxc = vFA + vrest - vH
>>
    Returns [vrest], [hartree], [fa], [vxc] and the inverter. *)
Definition cell_vxc (i : Inverter Grid) (da_ db_ : array2) (vFA_ vH_ : array1)
  : option (array1 * array1 * array1 * array1 * Inverter Grid) :=
  let r := grid_to_grid (eng_grid i) (v_pbs i) "rectangular" in
  density <- add2 da_ db_ ;;
  let h := grid_hartree (snd r) density "rectangular" in
  let i' := set_grid i (snd h) in
  s <- fermi_amaldi_factor (nalpha i') (nbeta i') ;;
  t <- add1 vFA_ (fst r) ;;
  v <- sub1 t vH_ ;;
  Some (fst r, fst h, scale1 s (fst h), v, i').

(** The code cells in notebook order; the closing cell only plots [vxc]
    against [x]. *)
Definition notebook : option Namespace :=
  let m := define_molecule in
  let f := perform_calculation m in
  let i0 := initialize_inverter m f in
  i1 <- cell_invert i0 ;;
  let gx := cell_build_grid i1 in
  p <- cell_potentials (fst gx) ;;
  let '(vH_, vFA_, i2) := p in
  q <- cell_vxc i2 (extract_da f) (extract_db f) vFA_ vH_ ;;
  let '(vrest_, hartree_, fa_, vxc_, i3) := q in
  Some (mkNamespace m f (extract_da f) (extract_db f)
          (extract_ca m f) (extract_cb m f) (extract_ea f) (extract_eb f)
          i3 (snd gx) vH_ vFA_ vrest_ hartree_ fa_ vxc_).

End Cells.
End PySCF_Be.

(** * The Psi4 notebook *)

(** What [Psi4_Examples/Wu_Yang/Be_Example.ipynb] calls in Psi4 and in n2v's
    Psi4 engine.  [esp] and [generate_grid] return tuples, which the notebook
    indexes. *)
Class Psi4 : Type := {
  Wfn : Type;
  PsiGrid : Type;
  (** [psi4.properties(name, return_wfn=True, ...)[1]] *)
  properties_wfn : string -> Wfn;
  (** [n2v.Inverter.from_wfn(wfn, pbs=...)] *)
  from_wfn : Wfn -> string -> Inverter PsiGrid;
  (** [inv.invert(method, guide_components=...)]; [None] when it raises *)
  psi_invert : Inverter PsiGrid -> string -> string -> option (Inverter PsiGrid);
  (** [inv.eng.grid.generate_grid(x=..., y=..., z=...)] *)
  grid_generate_grid :
    PsiGrid -> array1 -> array1 -> array1 -> list array2 * PsiGrid;
  (** [inv.eng.grid.esp(Da=..., Db=..., grid=...)] *)
  grid_esp : PsiGrid -> array2 -> array2 -> array2 -> list array1 * PsiGrid;
  (** [inv.eng.grid.ao(coefficients, grid=..., basis=inv.eng.pbs)] *)
  grid_ao : PsiGrid -> array1 -> array2 -> array1 * PsiGrid
}.

Module Psi4_Be.
Section Cells.
Context {P : Psi4}.

(** Cell [narrative-conducting]: CCSD wavefunction of Be, then the inverter
    built from it. *)
Definition build_inverter : Inverter PsiGrid :=
  from_wfn (properties_wfn "ccsd/aug-cc-pvtz") "aug-cc-pvqz".

(** Cell [careful-maker]. *)
Definition cell_invert (i : Inverter PsiGrid) : option (Inverter PsiGrid) :=
  psi_invert i "WuYang" "fermi_amaldi".

(** Cell [framed-fireplace]:
<<
    x = np.linspace(-5,5,101)
    y = np.zeros_like(x)
    z = np.zeros_like(x)
    grid = np.array([x,y,z])
    grid2 = inv.eng.grid.generate_grid(x=x, y=[0], z=[0])[0]
>>
    Returns [x], [grid], [grid2] and the inverter. *)
Definition cell_build_grid (i : Inverter PsiGrid)
  : option (array1 * array2 * array2 * Inverter PsiGrid) :=
  let x := linspace (-5) 5 101 in
  let y := zeros_like x in
  let z := zeros_like x in
  let grid := [x; y; z] in
  let r := grid_generate_grid (eng_grid i) x [0%Q] [0%Q] in
  grid2 <- getitem (fst r) 0 ;;
  Some (x, grid, grid2, set_grid i (snd r)).

(** Cell [multiple-morning]:
<<
    vH = inv.eng.grid.esp(Da=inv.Dt[0], Db=inv.Dt[1], grid=grid)[1]
    vFA = (1-1/(inv.nalpha + inv.nbeta)) * vH
>> *)
Definition cell_potentials (i : Inverter PsiGrid) (grid : array2)
  : option (array1 * array1 * Inverter PsiGrid) :=
  D0 <- getitem (Dt i) 0 ;;
  D1 <- getitem (Dt i) 1 ;;
  let r := grid_esp (eng_grid i) D0 D1 grid in
  vH <- getitem (fst r) 1 ;;
  let i' := set_grid i (snd r) in
  s <- fermi_amaldi_factor (nalpha i') (nbeta i') ;;
  Some (vH, scale1 s vH, i').

(** Cell [grand-justice]:
<<
    vrest = inv.eng.grid.ao(inv.v_pbs, grid=grid, basis=inv.eng.pbs)
    vxc = vFA + vrest - vH
>> *)
Definition cell_vxc (i : Inverter PsiGrid) (grid : array2) (vFA vH : array1)
  : option (array1 * array1 * Inverter PsiGrid) :=
  let r := grid_ao (eng_grid i) (v_pbs i) grid in
  t <- add1 vFA (fst r) ;;
  v <- sub1 t vH ;;
  Some (fst r, v, set_grid i (snd r)).

End Cells.
End Psi4_Be.

(** * A closed-form engine

    Small stand-ins for PySCF, Psi4 and the grid engines, on which the
    notebooks run to actual numbers. *)

Module Demo.

Definition total1 (a : array1) : Q := fold_right Qplus 0%Q a.
Definition total2 (m : array2) : Q := total1 (map total1 m).
Definition dot (a b : array1) : Q :=
  total1 (map (fun p => fst p * snd p)%Q (combine a b)).

(** Closed-shell density matrix from the first [nocc] orbitals. *)
Definition density_of (nocc : nat) (C : array2) : array2 :=
  map (fun ri => map (fun rj => 2 * dot (firstn nocc ri) (firstn nocc rj))%Q C) C.

Definition coefficients : array2 :=
  [[1; 1 # 2; 0]; [0; 1; 1 # 3]; [1 # 5; 0; 1]]%Q.
Definition energies : array1 := [- (4); - (1 # 3); 1 # 10]%Q.

(** A screened point charge, and a polynomial in the coordinate. *)
Definition coulomb (charge : Q) (pts : array1) : array1 :=
  map (fun r => charge / (1 + r * r))%Q pts.
Definition polynomial (coeffs : array1) (pts : array1) : array1 :=
  map (fun r => fold_right (fun c acc => c + r * acc)%Q 0%Q coeffs) pts.

#[export] Instance pyscf : PySCF := {|
  Mol := nat * nat;
  MeanField := nat * array2 * array1;
  Grid := array1;
  gto_M := fun _ _ => (2, 2)%nat;
  nelec := fun m => m;
  KS_kernel := fun m _ => (fst m, coefficients, energies);
  make_rdm1 := fun f => density_of (fst (fst f)) (snd (fst f));
  mo_coeff := fun f => snd (fst f);
  mo_energy := fun f => snd f;
  new_Inverter := fun _ => mkInverter [] [] [] 0%nat 0%nat [] [];
  set_system := fun i m _ _ =>
    mkInverter (Dt i) (ct i) (et i) (fst m) (snd m) (v_pbs i) (eng_grid i);
  invert := fun i _ _ =>
    Some (mkInverter (Dt i) (ct i) (et i) (nalpha i) (nbeta i)
            [1 # 2; - (1 # 4); 1 # 8]%Q (eng_grid i));
  grid_build_rectangular := fun _ shape => linspace (-5) 5 (fst (fst shape));
  grid_x := fun g => g;
  grid_hartree := fun g density _ => (coulomb (total2 density) g, g);
  grid_to_grid := fun g coeffs _ => (polynomial coeffs g, g)
|}.

#[export] Instance psi4 : Psi4 := {|
  Wfn := nat * array2;
  PsiGrid := unit;
  properties_wfn := fun _ => (2%nat, coefficients);
  from_wfn := fun w _ =>
    let D := halve2 (density_of (fst w) (snd w)) in
    mkInverter [D; D] [] [] (fst w) (fst w) [] tt;
  psi_invert := fun i _ _ =>
    Some (mkInverter (Dt i) (ct i) (et i) (nalpha i) (nbeta i)
            [1 # 2; - (1 # 4); 1 # 8]%Q (eng_grid i));
  grid_generate_grid := fun g x y z => ([[x; zeros_like x; zeros_like x]], g);
  grid_esp := fun g Da Db grid =>
    let pts := nth 0 grid [] in
    let vext := coulomb (- (4)) pts in
    let vh := coulomb (total2 Da + total2 Db) pts in
    ([vext; vh; scale1 (3 # 4) vh; map (fun p => fst p + snd p)%Q (combine vext vh)], g);
  grid_ao := fun g coeffs grid => (polynomial coeffs (nth 0 grid []), g)
|}.

End Demo.

(** * Facts about the array operations *)

Lemma broadcast_same_length {A B C : Type} (f : A -> B -> option C) a b :
  List.length a = List.length b -> broadcast f a b = zipM f a b.
Proof.
  intros E. unfold broadcast. rewrite E, Nat.eqb_refl. reflexivity.
Qed.

Lemma halves_add_up (r : array1) :
  exists s, add1 (map (fun x => x / 2)%Q r) (map (fun x => x / 2)%Q r) = Some s
            /\ aeq1 s r.
Proof.
  unfold add1. rewrite broadcast_same_length by reflexivity.
  induction r as [|x r [s [E H]]]; simpl.
  - exists []. split; [reflexivity | constructor].
  - rewrite E. exists ((x / 2 + x / 2)%Q :: s). split; [reflexivity|].
    constructor; [field | exact H].
Qed.

Lemma halve2_add_up (m : array2) :
  exists s, add2 (halve2 m) (halve2 m) = Some s /\ aeq2 s m.
Proof.
  unfold add2. rewrite broadcast_same_length by reflexivity.
  unfold halve2.
  induction m as [|r m [s [E H]]]; simpl.
  - exists []. split; [reflexivity | constructor].
  - destruct (halves_add_up r) as [t [Et Ht]]. rewrite Et, E.
    exists (t :: s). split; [reflexivity | constructor; assumption].
Qed.

Lemma nth_error_scale1 (s : Q) (a : array1) (k : nat) :
  nth_error (scale1 s a) k = option_map (Qmult s) (nth_error a k).
Proof.
  unfold scale1. apply nth_error_map.
Qed.

Lemma fermi_amaldi_factor_pos (na nb : nat) :
  (0 < na + nb)%nat ->
  fermi_amaldi_factor na nb = Some (1 - 1 / inject_Z (Z.of_nat (na + nb)))%Q.
Proof.
  intros H. unfold fermi_amaldi_factor.
  destruct (na + nb =? 0)%nat eqn:E; [|reflexivity].
  apply Nat.eqb_eq in E. lia.
Qed.

(** With no electrons the factor is a division by zero. *)
Lemma fermi_amaldi_factor_zero : fermi_amaldi_factor 0 0 = None.
Proof. reflexivity. Qed.

(** * The Fermi-Amaldi guide potential *)

(** C2.  In both notebooks the Fermi-Amaldi potential [vFA] is the Hartree
    potential [vH] multiplied, at every grid point, by
    [1 - 1/(nalpha + nbeta)].  In the PySCF notebook [vH] is
    [hartree] of the total density [Da + Db]; in the Psi4 notebook it is
    entry 1 of [esp(Da, Db, grid)].  The electron count must not be zero
    (the factor is then a division by zero) and [Da + Db] must be defined. *)
Theorem fermi_amaldi_is_scaled_hartree
  (T : PySCF) (P : Psi4) (Da Db total : array2) (na nb : nat)
  (i : Inverter Grid) (j : Inverter PsiGrid) (grid : array2) (h : array1) :
  (0 < na + nb)%nat ->
  add2 Da Db = Some total ->
  Dt i = [Da; Db] -> nalpha i = na -> nbeta i = nb ->
  Dt j = [Da; Db] -> nalpha j = na -> nbeta j = nb ->
  getitem (fst (grid_esp (eng_grid j) Da Db grid)) 1 = Some h ->
  let s := (1 - 1 / inject_Z (Z.of_nat (na + nb)))%Q in
  let hartree_total := fst (grid_hartree (eng_grid i) total "rectangular") in
  (exists vFA i',
      PySCF_Be.cell_potentials i = Some (hartree_total, vFA, i')
      /\ forall k, nth_error vFA k = option_map (Qmult s) (nth_error hartree_total k))
  /\ (exists vFA j',
      Psi4_Be.cell_potentials j grid = Some (h, vFA, j')
      /\ forall k, nth_error vFA k = option_map (Qmult s) (nth_error h k)).
Proof.
  intros Hpos Hadd HDi Hai Hbi HDj Haj Hbj Hesp s hartree_total.
  split.
  - unfold PySCF_Be.cell_potentials. rewrite HDi.
    change (getitem [Da; Db] 0) with (Some Da).
    change (getitem [Da; Db] 1) with (Some Db). cbv iota beta.
    rewrite Hadd. simpl nalpha. simpl nbeta. rewrite Hai, Hbi.
    rewrite (fermi_amaldi_factor_pos na nb Hpos).
    eexists. eexists. split; [reflexivity|].
    intros k. apply nth_error_scale1.
  - unfold Psi4_Be.cell_potentials. rewrite HDj.
    change (getitem [Da; Db] 0) with (Some Da).
    change (getitem [Da; Db] 1) with (Some Db). cbv iota beta.
    rewrite Hesp. simpl nalpha. simpl nbeta. rewrite Haj, Hbj.
    rewrite (fermi_amaldi_factor_pos na nb Hpos).
    eexists. eexists. split; [reflexivity|].
    intros k. apply nth_error_scale1.
Qed.

(** The two notebooks on the closed-form engine: four electrons, factor 3/4. *)
Lemma fermi_amaldi_is_scaled_hartree_witness :
  let D := halve2 (Demo.density_of 2 Demo.coefficients) in
  let i := mkInverter [D; D] [] [] 2 2 [] (linspace (-5) 5 5) : Inverter (@Grid Demo.pyscf) in
  let j := mkInverter [D; D] [] [] 2 2 [] tt : Inverter (@PsiGrid Demo.psi4) in
  (0 < 2 + 2)%nat
  /\ (exists vH vFA i', @PySCF_Be.cell_potentials Demo.pyscf i = Some (vH, vFA, i')
        /\ forall k, nth_error vFA k = option_map (Qmult (1 - 1 / inject_Z 4)) (nth_error vH k))
  /\ (exists vH vFA j',
        @Psi4_Be.cell_potentials Demo.psi4 j [linspace (-5) 5 5; [0; 0; 0; 0; 0]%Q; [0; 0; 0; 0; 0]%Q]
        = Some (vH, vFA, j')
        /\ forall k, nth_error vFA k = option_map (Qmult (1 - 1 / inject_Z 4)) (nth_error vH k)).
Proof.
  intros D i j.
  split; [lia|].
  destruct (add2 D D) as [total|] eqn:Hadd; [|vm_compute in Hadd; discriminate Hadd].
  pose (grid := [linspace (-5) 5 5; [0; 0; 0; 0; 0]%Q; [0; 0; 0; 0; 0]%Q]).
  destruct (getitem (fst (@grid_esp Demo.psi4 tt D D grid)) 1) as [h|] eqn:Hesp;
    [|vm_compute in Hesp; discriminate Hesp].
  assert (Hpos : (0 < 2 + 2)%nat) by lia.
  pose proof (fermi_amaldi_is_scaled_hartree Demo.pyscf Demo.psi4 D D total 2 2
                i j grid h Hpos Hadd eq_refl eq_refl eq_refl eq_refl eq_refl
                eq_refl Hesp) as H.
  cbv zeta in H. destruct H as [[vFA [i' [E1 H1]]] [vFA' [j' [E2 H2]]]].
  split.
  - eexists. exists vFA, i'. split; [exact E1 | exact H1].
  - exists h, vFA', j'. split; [exact E2 | exact H2].
Defined.

(** * The inputs handed to the inverter *)

(** C9.  In the closed-shell PySCF example ([mol.nelec[0] = mol.nelec[1]])
    the two target densities are the same array, each half of
    [mf.make_rdm1()], and their sum is that density matrix again; the
    orbital coefficients of both channels are leading columns of the one
    [mf.mo_coeff], the orbital energies of both are [mf.mo_energy]; so
    exchanging the spin channels leaves [Dt], [ct] and [et] as they are. *)
Theorem restricted_inputs_spin_symmetric
  (T : PySCF) (m : Mol) (f : MeanField) :
  fst (nelec m) = snd (nelec m) ->
  let i := PySCF_Be.initialize_inverter m f in
  Dt i = [halve2 (make_rdm1 f); halve2 (make_rdm1 f)]
  /\ getitem (Dt i) 0 = getitem (Dt i) 1
  /\ (exists total,
        (D0 <- getitem (Dt i) 0 ;; D1 <- getitem (Dt i) 1 ;; add2 D0 D1) = Some total
        /\ aeq2 total (make_rdm1 f))
  /\ ct i = [cols_upto (fst (nelec m)) (mo_coeff f);
             cols_upto (snd (nelec m)) (mo_coeff f)]
  /\ et i = [mo_energy f; mo_energy f]
  /\ spin_exchange (inversion_inputs i) = inversion_inputs i.
Proof.
  intros Hclosed i.
  assert (HD : Dt i = [halve2 (make_rdm1 f); halve2 (make_rdm1 f)]) by reflexivity.
  assert (Hc : ct i = [cols_upto (fst (nelec m)) (mo_coeff f);
                       cols_upto (snd (nelec m)) (mo_coeff f)]) by reflexivity.
  assert (He : et i = [mo_energy f; mo_energy f]) by reflexivity.
  split; [exact HD|]. split; [rewrite HD; reflexivity|].
  split; [|split; [exact Hc|split; [exact He|]]].
  - rewrite HD. change (getitem [halve2 (make_rdm1 f); halve2 (make_rdm1 f)] 0)
      with (Some (halve2 (make_rdm1 f))).
    change (getitem [halve2 (make_rdm1 f); halve2 (make_rdm1 f)] 1)
      with (Some (halve2 (make_rdm1 f))).
    apply halve2_add_up.
  - unfold inversion_inputs, spin_exchange. rewrite HD, Hc, He, Hclosed.
    reflexivity.
Qed.

(** Beryllium on the closed-form engine: two electrons per channel. *)
Lemma restricted_inputs_spin_symmetric_witness :
  let m := @PySCF_Be.define_molecule Demo.pyscf in
  let f := @PySCF_Be.perform_calculation Demo.pyscf m in
  let i := @PySCF_Be.initialize_inverter Demo.pyscf m f in
  fst (@nelec Demo.pyscf m) = snd (@nelec Demo.pyscf m)
  /\ getitem (Dt i) 0 = getitem (Dt i) 1
  /\ spin_exchange (inversion_inputs i) = inversion_inputs i.
Proof.
  intros m f i.
  assert (Hclosed : fst (@nelec Demo.pyscf m) = snd (@nelec Demo.pyscf m))
    by reflexivity.
  pose proof (restricted_inputs_spin_symmetric Demo.pyscf m f Hclosed) as H.
  cbv zeta in H. destruct H as [_ [H1 [_ [_ [_ H5]]]]].
  split; [exact Hclosed | split; [exact H1 | exact H5]].
Defined.

(** * The vxc cell *)

Section CellInversion.
Context {T : PySCF}.

(** What a successful run of cell [serious-publication] has computed. *)
Lemma cell_vxc_inv (i i' : Inverter Grid) (da_ db_ : array2)
      (vFA_ vH_ vrest_ hartree_ fa_ vxc_ : array1) :
  PySCF_Be.cell_vxc i da_ db_ vFA_ vH_ = Some (vrest_, hartree_, fa_, vxc_, i') ->
  exists density s t,
    add2 da_ db_ = Some density
    /\ fermi_amaldi_factor (nalpha i) (nbeta i) = Some s
    /\ vrest_ = fst (grid_to_grid (eng_grid i) (v_pbs i) "rectangular")
    /\ hartree_ = fst (grid_hartree
                         (snd (grid_to_grid (eng_grid i) (v_pbs i) "rectangular"))
                         density "rectangular")
    /\ fa_ = scale1 s hartree_
    /\ add1 vFA_ vrest_ = Some t
    /\ sub1 t vH_ = Some vxc_.
Proof.
  intros H. unfold PySCF_Be.cell_vxc in H. cbv zeta in H.
  destruct (add2 da_ db_) as [density|]; [|discriminate H].
  simpl nalpha in H. simpl nbeta in H.
  destruct (fermi_amaldi_factor (nalpha i) (nbeta i)) as [s|]; [|discriminate H].
  destruct (add1 vFA_ (fst (grid_to_grid (eng_grid i) (v_pbs i) "rectangular")))
    as [t|] eqn:Et; [|discriminate H].
  destruct (sub1 t vH_) as [v|] eqn:Ev; [|discriminate H].
  injection H as <- <- <- <- <-.
  exists density, s, t. repeat split; try reflexivity; assumption.
Qed.

End CellInversion.

(** * More about the cells *)

Lemma fermi_amaldi_factor_some (na nb : nat) (s : Q) :
  fermi_amaldi_factor na nb = Some s ->
  (0 < na + nb)%nat /\ s = (1 - 1 / inject_Z (Z.of_nat (na + nb)))%Q.
Proof.
  unfold fermi_amaldi_factor. destruct (na + nb =? 0)%nat eqn:E; intros H.
  - discriminate H.
  - apply Nat.eqb_neq in E. injection H as <-. split; [lia | reflexivity].
Qed.

(** ** What vxc depends on *)

(** X6.  In cell [serious-publication], [vrest] and [vxc] do not depend on [da]
    and [db]: the Hartree and Fermi-Amaldi potentials evaluated there again
    never enter [vxc]. *)
Theorem pyscf_vxc_ignores_recomputation
  (T : PySCF) (i i1 i2 : Inverter Grid) (da1 db1 da2 db2 : array2)
  (vFA_ vH_ vrest1 hartree1 fa1 vxc1 vrest2 hartree2 fa2 vxc2 : array1) :
  PySCF_Be.cell_vxc i da1 db1 vFA_ vH_ = Some (vrest1, hartree1, fa1, vxc1, i1) ->
  PySCF_Be.cell_vxc i da2 db2 vFA_ vH_ = Some (vrest2, hartree2, fa2, vxc2, i2) ->
  vrest1 = vrest2 /\ vxc1 = vxc2.
Proof.
  intros H1 H2.
  destruct (cell_vxc_inv _ _ _ _ _ _ _ _ _ _ H1)
    as [d1 [s1 [t1 [_ [_ [Hr1 [_ [_ [Et1 Ev1]]]]]]]]].
  destruct (cell_vxc_inv _ _ _ _ _ _ _ _ _ _ H2)
    as [d2 [s2 [t2 [_ [_ [Hr2 [_ [_ [Et2 Ev2]]]]]]]]].
  assert (Hr : vrest1 = vrest2) by congruence.
  split; [exact Hr|].
  rewrite <- Hr in Et2. rewrite Et1 in Et2. injection Et2 as <-.
  congruence.
Qed.

(** Two different density pairs handed to the vxc cell of the closed-form
    engine. *)
Lemma pyscf_vxc_ignores_recomputation_witness :
  let D := halve2 (Demo.density_of 2 Demo.coefficients) in
  let i := mkInverter [D; D] [] [] 2 2 [1 # 2; - (1 # 4); 1 # 8]%Q (linspace (-5) 5 5)
           : Inverter (@Grid Demo.pyscf) in
  let vH_ := Demo.coulomb 5 (linspace (-5) 5 5) in
  let vFA_ := scale1 (3 # 4) vH_ in
  exists r1 r2,
    @PySCF_Be.cell_vxc Demo.pyscf i D D vFA_ vH_ = Some r1
    /\ @PySCF_Be.cell_vxc Demo.pyscf i [[1]]%Q [[2]]%Q vFA_ vH_ = Some r2
    /\ snd (fst r1) = snd (fst r2).
Proof.
  intros D i vH_ vFA_.
  destruct (@PySCF_Be.cell_vxc Demo.pyscf i D D vFA_ vH_)
    as [[[[[vrest1 hartree1] fa1] vxc1] i1]|] eqn:E1;
    [|vm_compute in E1; discriminate E1].
  destruct (@PySCF_Be.cell_vxc Demo.pyscf i [[1]]%Q [[2]]%Q vFA_ vH_)
    as [[[[[vrest2 hartree2] fa2] vxc2] i2]|] eqn:E2;
    [|vm_compute in E2; discriminate E2].
  do 2 eexists. split; [reflexivity|]. split; [reflexivity|].
  apply (pyscf_vxc_ignores_recomputation Demo.pyscf _ _ _ _ _ _ _ _ _ _ _ _ _ _ _ _ _
           E1 E2).
Defined.

(** ** What a successful potentials cell has computed *)

Lemma pyscf_potentials_factor (T : PySCF) (i i' : Inverter Grid) (vh vfa : array1) :
  PySCF_Be.cell_potentials i = Some (vh, vfa, i') ->
  (0 < nalpha i + nbeta i)%nat
  /\ vfa = scale1 (1 - 1 / inject_Z (Z.of_nat (nalpha i + nbeta i))) vh
  /\ nalpha i' = nalpha i /\ nbeta i' = nbeta i.
Proof.
  unfold PySCF_Be.cell_potentials. intros H.
  destruct (getitem (Dt i) 0) as [D0|]; [|discriminate H].
  destruct (getitem (Dt i) 1) as [D1|]; [|discriminate H].
  destruct (add2 D0 D1) as [density|]; [|discriminate H].
  cbv zeta in H. cbn [nalpha nbeta set_grid] in H.
  destruct (fermi_amaldi_factor (nalpha i) (nbeta i)) as [s|] eqn:Es;
    [|discriminate H].
  destruct (fermi_amaldi_factor_some _ _ _ Es) as [HN ->].
  injection H as <- <- <-. repeat split; assumption.
Qed.

Lemma psi4_potentials_factor (P : Psi4) (j j' : Inverter PsiGrid) (grid : array2)
      (vh vfa : array1) :
  Psi4_Be.cell_potentials j grid = Some (vh, vfa, j') ->
  (0 < nalpha j + nbeta j)%nat
  /\ vfa = scale1 (1 - 1 / inject_Z (Z.of_nat (nalpha j + nbeta j))) vh
  /\ nalpha j' = nalpha j /\ nbeta j' = nbeta j.
Proof.
  unfold Psi4_Be.cell_potentials. intros H.
  destruct (getitem (Dt j) 0) as [D0|]; [|discriminate H].
  destruct (getitem (Dt j) 1) as [D1|]; [|discriminate H].
  cbv zeta in H.
  destruct (getitem (fst (grid_esp (eng_grid j) D0 D1 grid)) 1) as [h|];
    [|discriminate H].
  cbn [nalpha nbeta set_grid] in H.
  destruct (fermi_amaldi_factor (nalpha j) (nbeta j)) as [s|] eqn:Es;
    [|discriminate H].
  destruct (fermi_amaldi_factor_some _ _ _ Es) as [HN ->].
  injection H as <- <- <-. repeat split; assumption.
Qed.

(** ** How large the guide potential can be *)

From Stdlib Require Import Qabs Lqa.

Lemma fermi_amaldi_factor_range (N : nat) :
  (0 < N)%nat ->
  (0 <= 1 - 1 / inject_Z (Z.of_nat N))%Q
  /\ (1 - 1 / inject_Z (Z.of_nat N) < 1)%Q
  /\ (N = 1%nat -> 1 - 1 / inject_Z (Z.of_nat N) == 0)%Q.
Proof.
  intros HN.
  destruct (Z.of_nat N) as [|p|p] eqn:E; try lia.
  assert (Hinv : (1 / inject_Z (Z.pos p) == 1 # p)%Q)
    by (unfold Qdiv, Qinv, inject_Z; simpl; ring).
  rewrite Hinv.
  assert (Hle : (1 # p <= 1)%Q) by (unfold Qle; cbn [Qnum Qden]; lia).
  assert (Hlt : (0 < 1 # p)%Q) by reflexivity.
  repeat split.
  - lra.
  - lra.
  - intros H1. subst N. simpl in E. injection E as <-. reflexivity.
Qed.

Lemma scaled_by_factor_is_damped (N : nat) (vH_ : array1) :
  (0 < N)%nat ->
  forall k v, nth_error vH_ k = Some v ->
    exists w, nth_error (scale1 (1 - 1 / inject_Z (Z.of_nat N)) vH_) k = Some w
              /\ (Qabs w <= Qabs v)%Q
              /\ (0 <= w * v)%Q
              /\ (N = 1%nat -> w == 0)%Q.
Proof.
  intros HN k v Hk.
  destruct (fermi_amaldi_factor_range N HN) as [H0 [H1 Hone]].
  set (s := (1 - 1 / inject_Z (Z.of_nat N))%Q) in *.
  exists (s * v)%Q. split; [rewrite nth_error_scale1, Hk; reflexivity|].
  clearbody s. split; [|split].
  - rewrite Qabs_Qmult, (Qabs_pos s) by exact H0.
    assert (Ha : (0 <= Qabs v)%Q) by apply Qabs_nonneg.
    generalize dependent (Qabs v). intros a Ha.
    setoid_replace a with (1 * a)%Q at 2 by ring.
    apply Qmult_le_compat_r; [apply Qlt_le_weak; exact H1 | exact Ha].
  - setoid_replace (s * v * v)%Q with (s * (v * v))%Q by ring.
    apply Qmult_le_0_compat; [exact H0|].
    destruct (Qlt_le_dec v 0) as [Hv|Hv].
    + setoid_replace (v * v)%Q with ((- v) * (- v))%Q by ring.
      assert (0 <= - v)%Q by lra. apply Qmult_le_0_compat; assumption.
    + apply Qmult_le_0_compat; assumption.
  - intros E. rewrite (Hone E). ring.
Qed.

(** X7.  In both notebooks the Fermi-Amaldi potential has the length of the
    Hartree potential and is, at every point, no larger in magnitude and
    never of the opposite sign; for a one-electron system it is zero
    everywhere. *)
Theorem fermi_amaldi_damps_hartree (T : PySCF) (P : Psi4) :
  (forall (i i' : Inverter Grid) (vH_ vFA_ : array1),
      PySCF_Be.cell_potentials i = Some (vH_, vFA_, i') ->
      List.length vFA_ = List.length vH_
      /\ forall k v, nth_error vH_ k = Some v ->
           exists w, nth_error vFA_ k = Some w
                     /\ (Qabs w <= Qabs v)%Q /\ (0 <= w * v)%Q
                     /\ ((nalpha i + nbeta i)%nat = 1%nat -> w == 0)%Q)
  /\ (forall (j j' : Inverter PsiGrid) (grid : array2) (vH_ vFA_ : array1),
      Psi4_Be.cell_potentials j grid = Some (vH_, vFA_, j') ->
      List.length vFA_ = List.length vH_
      /\ forall k v, nth_error vH_ k = Some v ->
           exists w, nth_error vFA_ k = Some w
                     /\ (Qabs w <= Qabs v)%Q /\ (0 <= w * v)%Q
                     /\ ((nalpha j + nbeta j)%nat = 1%nat -> w == 0)%Q).
Proof.
  split.
  - intros i i' vH_ vFA_ E.
    destruct (pyscf_potentials_factor _ _ _ _ _ E) as [HN [-> _]].
    split; [unfold scale1; apply length_map|].
    apply scaled_by_factor_is_damped; exact HN.
  - intros j j' grid vH_ vFA_ E.
    destruct (psi4_potentials_factor _ _ _ _ _ _ E) as [HN [-> _]].
    split; [unfold scale1; apply length_map|].
    apply scaled_by_factor_is_damped; exact HN.
Qed.

(** Both potentials cells on the closed-form engine. *)
Lemma fermi_amaldi_damps_hartree_witness :
  let D := halve2 (Demo.density_of 2 Demo.coefficients) in
  let i := mkInverter [D; D] [] [] 2 2 [] (linspace (-5) 5 5)
           : Inverter (@Grid Demo.pyscf) in
  let j := mkInverter [D; D] [] [] 2 2 [] tt : Inverter (@PsiGrid Demo.psi4) in
  let grid := [linspace (-5) 5 5; [0; 0; 0; 0; 0]%Q; [0; 0; 0; 0; 0]%Q] in
  exists vH_ vFA_ i' pH pFA j',
    @PySCF_Be.cell_potentials Demo.pyscf i = Some (vH_, vFA_, i')
    /\ @Psi4_Be.cell_potentials Demo.psi4 j grid = Some (pH, pFA, j')
    /\ List.length vFA_ = List.length vH_
    /\ List.length pFA = List.length pH.
Proof.
  intros D i j grid.
  destruct (@PySCF_Be.cell_potentials Demo.pyscf i) as [[[vH_ vFA_] i']|] eqn:Ei;
    [|vm_compute in Ei; discriminate Ei].
  destruct (@Psi4_Be.cell_potentials Demo.psi4 j grid) as [[[pH pFA] j']|] eqn:Ej;
    [|vm_compute in Ej; discriminate Ej].
  destruct (fermi_amaldi_damps_hartree Demo.pyscf Demo.psi4) as [H1 H2].
  destruct (H1 _ _ _ _ Ei) as [L1 _].
  destruct (H2 _ _ _ _ _ Ej) as [L2 _].
  exists vH_, vFA_, i', pH, pFA, j'.
  split; [reflexivity|]. split; [reflexivity|]. split; [exact L1 | exact L2].
Defined.

(** ** When the inputs are spin-symmetric *)

Lemma firstn_min_length {A : Type} (k : nat) (r : list A) :
  firstn (Nat.min k (List.length r)) r = firstn k r.
Proof.
  destruct (Nat.le_ge_cases k (List.length r)) as [H|H].
  - rewrite Nat.min_l by exact H. reflexivity.
  - rewrite Nat.min_r by exact H.
    rewrite firstn_all, firstn_all2 by exact H. reflexivity.
Qed.

Lemma firstn_eq_iff {A : Type} (a b : nat) (r : list A) :
  firstn a r = firstn b r
  <-> Nat.min a (List.length r) = Nat.min b (List.length r).
Proof.
  split; intros H.
  - apply (f_equal (@List.length A)) in H.
    rewrite !length_firstn in H. exact H.
  - rewrite <- (firstn_min_length a), <- (firstn_min_length b), H. reflexivity.
Qed.

Lemma cols_upto_eq_iff (a b w : nat) (m : array2) :
  m <> [] ->
  Forall (fun row => List.length row = w) m ->
  (cols_upto a m = cols_upto b m <-> Nat.min a w = Nat.min b w).
Proof.
  intros Hne Hw. unfold cols_upto. split.
  - intros H. destruct m as [|row m]; [contradiction Hne; reflexivity|].
    simpl in H. injection H as H _.
    apply firstn_eq_iff in H. inversion Hw; subst. exact H.
  - intros H. apply map_ext_in. intros row Hin.
    apply firstn_eq_iff.
    rewrite Forall_forall in Hw. rewrite (Hw row Hin). exact H.
Qed.

(** X9.  For a coefficient matrix with [w] columns and at least one row, the
    inputs assigned in cell [tropical-frequency] are unchanged under
    exchange of the spin channels exactly when [mol.nelec[0]] and
    [mol.nelec[1]], each capped at [w], agree.  The two densities and the two
    energy arrays are equal whatever the electron counts are. *)
Theorem spin_symmetric_iff_counts_agree
  (T : PySCF) (m : Mol) (f : MeanField) (w : nat) :
  mo_coeff f <> [] ->
  Forall (fun row => List.length row = w) (mo_coeff f) ->
  let i := PySCF_Be.initialize_inverter m f in
  getitem (Dt i) 0 = getitem (Dt i) 1
  /\ getitem (et i) 0 = getitem (et i) 1
  /\ (spin_exchange (inversion_inputs i) = inversion_inputs i
      <-> Nat.min (fst (nelec m)) w = Nat.min (snd (nelec m)) w).
Proof.
  intros Hne Hw i.
  assert (HD : Dt i = [halve2 (make_rdm1 f); halve2 (make_rdm1 f)]) by reflexivity.
  assert (Hc : ct i = [cols_upto (fst (nelec m)) (mo_coeff f);
                       cols_upto (snd (nelec m)) (mo_coeff f)]) by reflexivity.
  assert (He : et i = [mo_energy f; mo_energy f]) by reflexivity.
  split; [rewrite HD; reflexivity|]. split; [rewrite He; reflexivity|].
  rewrite <- (cols_upto_eq_iff _ _ w (mo_coeff f) Hne Hw).
  unfold inversion_inputs, spin_exchange. rewrite HD, Hc, He. simpl rev.
  split.
  - intros H. injection H as H _. symmetry. exact H.
  - intros H. rewrite H. reflexivity.
Qed.

(** Beryllium on the closed-form engine: three orbitals, two electrons per
    channel. *)
Lemma spin_symmetric_iff_counts_agree_witness :
  let m := @PySCF_Be.define_molecule Demo.pyscf in
  let f := @PySCF_Be.perform_calculation Demo.pyscf m in
  let i := @PySCF_Be.initialize_inverter Demo.pyscf m f in
  @mo_coeff Demo.pyscf f <> []
  /\ Forall (fun row => List.length row = 3%nat) (@mo_coeff Demo.pyscf f)
  /\ spin_exchange (inversion_inputs i) = inversion_inputs i.
Proof.
  intros m f i.
  assert (Hne : @mo_coeff Demo.pyscf f <> []) by (intros H; discriminate H).
  assert (Hw : Forall (fun row => List.length row = 3%nat) (@mo_coeff Demo.pyscf f))
    by (repeat constructor).
  split; [exact Hne|]. split; [exact Hw|].
  pose proof (spin_symmetric_iff_counts_agree Demo.pyscf m f 3 Hne Hw) as H.
  cbv zeta in H. destruct H as [_ [_ [_ H]]]. apply H. reflexivity.
Defined.
